(** * optools.mesh: mesh lines and their withers

    A shallow embedding of [optools/utils/__init__.py], [optools/mesh/base.py],
    [optools/mesh/constant.py], [optools/mesh/uniform.py] and
    [optools/mesh/adaptive.py].

    Numbers.  The code is written once for every Python number, and it is
    embedded at two number types.

    - Exact numbers (modules [np], [uniform], [adaptive]).  Python's [int] is
      [Z], and the parameters [start], [stop], [density], [resolution],
      [loss] are exact rationals [Q], as with [fractions.Fraction]:
      [math.ceil] is [Qceiling], [abs] is [Qabs], and the true division [/]
      raises [ZeroDivisionError] on a zero divisor.  Rationals are compared
      with [==] ([Qeq]): [1#2] and [2#4] are the same number.  This is the
      embedding of the withers, of clamping, of the example mesh of the
      tests and of the behaviour on degenerate intervals, where rounding
      plays no part.

    - Python's [float] (modules [pyfloat], [np64], [uniform64]): IEEE 754
      binary64, on Rocq's primitive floats, every operation rounded to
      nearest even.  [math.ceil] of an infinity raises [OverflowError] and of
      a NaN [ValueError].  This is the embedding of the derived views and of
      the points wherever rounding decides. *)

From Stdlib Require Import ZArith QArith Qabs Qround List String Bool Lia Lqa.
From Stdlib Require Floats.
Import ListNotations.

Local Open Scope Q_scope.

(** ** Exceptions and fallible computations *)

Inductive exn : Set :=
| ZeroDivisionError
| ValueError
| OverflowError.

Inductive result (A : Type) : Type :=
| Ok (a : A)
| Raise (e : exn).

Arguments Ok {A} a.
Arguments Raise {A} e.

Definition bind {A B : Type} (c : result A) (k : A -> result B) : result B :=
  match c with
  | Ok a => k a
  | Raise e => Raise e
  end.

Notation "x <- c ;; k" := (bind c (fun x => k))
  (at level 61, c at next level, right associativity).

(** [a / b] on Python numbers. *)
Definition truediv (a b : Q) : result Q :=
  if Qeq_bool b 0 then Raise ZeroDivisionError else Ok (a / b).

(** ** Python's ordering builtins

    [max(a, b)] keeps [a] unless [b > a]; [min(a, b)] keeps [a] unless
    [b < a]. *)

Class PyOrd (A : Type) : Type := py_lt : A -> A -> bool.

#[export] Instance PyOrd_Z : PyOrd Z := Z.ltb.
#[export] Instance PyOrd_Q : PyOrd Q := fun a b => negb (Qle_bool b a).

Definition py_max {A : Type} `{PyOrd A} (a b : A) : A :=
  if py_lt a b then b else a.

Definition py_min {A : Type} `{PyOrd A} (a b : A) : A :=
  if py_lt b a then b else a.

(** ** optools/utils/__init__.py *)

Module utils.

Definition clip {A : Type} `{PyOrd A}
    (value : A) (minv maxv : option A) : A :=
  let value :=
    match minv with
    | Some minv => py_max value minv
    | None => value
    end in
  let value :=
    match maxv with
    | Some maxv => py_min value maxv
    | None => value
    end in
  value.

End utils.

(** ** Bindings of the parametrized-object framework

    A mesh stored as a field of another parametrized object knows its
    binding; [binding.transfer(newobj)] is the containing object with the
    field replaced by [newobj].  The framework is not part of this
    repository: a container is its owner (everything but the field) and the
    value held in the field. *)

Module paramobject.

Record Binding : Set := mkBinding {
  owner : string;
  field : string
}.

Record Container (M : Type) : Type := mkContainer {
  bound_to : Binding;
  held : M
}.

Arguments mkContainer {M} bound_to held.
Arguments bound_to {M} c.
Arguments held {M} c.

Definition transfer {M : Type} (b : Binding) (newobj : M) : Container M :=
  mkContainer b newobj.

(** What a wither returns: the new object itself, or the container it was
    transferred to. *)
Inductive Withered (M : Type) : Type :=
| Bare (newobj : M)
| Rebound (c : Container M).

Arguments Bare {M} newobj.
Arguments Rebound {M} c.

Definition rebind {M : Type} (binding : option Binding) (newobj : M)
  : Withered M :=
  match binding with
  | Some b => Rebound (transfer b newobj)
  | None => Bare newobj
  end.

(** The new object of a wither's result: the result itself, or the field
    of the returned container. *)
Definition new_object {M : Type} (r : Withered M) : M :=
  match r with
  | Bare newobj => newobj
  | Rebound c => held c
  end.

End paramobject.

Import paramobject.

(** ** numpy.linspace

    [linspace start stop num], with the endpoint included: [num] samples
    [start + i * step] where [step = (stop - start) / (num - 1)], the last
    one set to [stop]; a zero step takes the samples as
    [start + i / (num - 1) * (stop - start)]; a single sample is [start]; a
    negative [num] is refused. *)

Module np.

Definition arange (num : Z) : list Z :=
  map Z.of_nat (seq 0 (Z.to_nat num)).

Definition set_last (y : list Q) (v : Q) : list Q :=
  removelast y ++ [v].

Definition linspace (start stop : Q) (num : Z) : result (list Q) :=
  if (num <? 0)%Z then Raise ValueError
  else
    let div := (num - 1)%Z in
    let delta := stop - start in
    if (0 <? div)%Z then
      let step := delta / inject_Z div in
      let y :=
        if Qeq_bool step 0 then
          map (fun i => inject_Z i / inject_Z div * delta + start)
              (arange num)
        else
          map (fun i => inject_Z i * step + start) (arange num) in
      Ok (set_last y stop)
    else
      Ok (map (fun i => inject_Z i * delta + start) (arange num)).

End np.

(** ** optools/mesh/uniform.py *)

Module uniform.

(** The three concrete classes, each with the parameter it stores. *)
Inductive Owned : Set :=
| OwnDivision (division : Z)
| OwnDensity (density : Q)
| OwnResolution (resolution : Q).

Inductive Class : Set :=
| DivisionUniform
| DensityUniform
| ResolutionUniform.

Record UniformMeshLine : Set := mkUniform {
  start : Q;
  stop : Q;
  owned : Owned;
  binding : option Binding
}.

Definition class_of (self : UniformMeshLine) : Class :=
  match owned self with
  | OwnDivision _ => DivisionUniform
  | OwnDensity _ => DensityUniform
  | OwnResolution _ => ResolutionUniform
  end.

(** Constructors: [division = Parameter(default=1000)],
    [density = Parameter(default=1000)],
    [resolution = Parameter(default=1e-3)]. *)
Definition DivisionUniformMeshLine
    (start stop : Q) (division : option Z) : UniformMeshLine :=
  mkUniform start stop
    (OwnDivision (match division with Some d => d | None => 1000%Z end))
    None.

Definition DensityUniformMeshLine
    (start stop : Q) (density : option Q) : UniformMeshLine :=
  mkUniform start stop
    (OwnDensity (match density with Some d => d | None => 1000 end))
    None.

Definition ResolutionUniformMeshLine
    (start stop : Q) (resolution : option Q) : UniformMeshLine :=
  mkUniform start stop
    (OwnResolution
       (match resolution with Some r => r | None => 1 # 1000 end))
    None.

(** [self.__class__(self, start=..., stop=...)]: a copy of [self] with the
    given ends. *)
Definition copy_with (self : UniformMeshLine) (start stop : Q)
  : UniformMeshLine :=
  mkUniform start stop (owned self) None.

(** The keyword arguments of [with_params], by parameter name. *)
Record Params : Set := mkParams {
  p_start : option Q;
  p_stop : option Q;
  p_division : option Z;
  p_density : option Q;
  p_resolution : option Q
}.

Definition no_params : Params := mkParams None None None None None.

(** base.py: [length = abs(stop - start)]. *)
Definition length (self : UniformMeshLine) : Q :=
  Qabs (stop self - start self).

Definition division (self : UniformMeshLine) : result Z :=
  match owned self with
  | OwnDivision division => Ok division
  | OwnDensity density => Ok (Qceiling (density * length self + 1))
  | OwnResolution resolution =>
      q <- truediv (length self) resolution ;;
      Ok (Qceiling (q + 1))
  end.

Definition density (self : UniformMeshLine) : result Q :=
  match owned self with
  | OwnDensity density => Ok density
  | OwnDivision _ | OwnResolution _ =>
      n <- division self ;;
      truediv (inject_Z n) (length self)
  end.

Definition resolution (self : UniformMeshLine) : result Q :=
  match owned self with
  | OwnResolution resolution => Ok resolution
  | OwnDivision _ | OwnDensity _ =>
      n <- division self ;;
      truediv (length self) (inject_Z n)
  end.

Definition points (self : UniformMeshLine) : result (list Q) :=
  n <- division self ;;
  np.linspace (start self) (stop self) n.

(** constant.py: [x = self.points; return x, func(x)]. *)
Definition evaluate {B : Type} (self : UniformMeshLine)
    (func : list Q -> B) : result (list Q * B) :=
  x <- points self ;;
  Ok (x, func x).

Definition with_params (self : UniformMeshLine) (params : Params)
  : Withered UniformMeshLine :=
  let start' :=
    match p_start params with Some s => s | None => start self end in
  let stop' :=
    match p_stop params with Some s => s | None => stop self end in
  let newobj :=
    match p_division params, p_density params, p_resolution params with
    | Some d, _, _ => DivisionUniformMeshLine start' stop' (Some d)
    | None, Some d, _ => DensityUniformMeshLine start' stop' (Some d)
    | None, None, Some r => ResolutionUniformMeshLine start' stop' (Some r)
    | None, None, None => copy_with self start' stop'
    end in
  rebind (binding self) newobj.

Definition with_division (self : UniformMeshLine) (division : option Z)
    (min_division max_division : option Z)
  : result (Withered UniformMeshLine) :=
  division <- match division with
              | None => uniform.division self
              | Some d => Ok d
              end ;;
  let division := utils.clip division min_division max_division in
  Ok (with_params self
        (mkParams None None (Some division) None None)).

Definition with_density (self : UniformMeshLine) (density : option Q)
    (min_density max_density : option Q)
  : result (Withered UniformMeshLine) :=
  density <- match density with
             | None => uniform.density self
             | Some d => Ok d
             end ;;
  let density := utils.clip density min_density max_density in
  Ok (with_params self
        (mkParams None None None (Some density) None)).

Definition with_resolution (self : UniformMeshLine) (resolution : option Q)
    (min_resolution max_resolution : option Q)
  : result (Withered UniformMeshLine) :=
  resolution <- match resolution with
                | None => uniform.resolution self
                | Some r => Ok r
                end ;;
  let resolution := utils.clip resolution min_resolution max_resolution in
  Ok (with_params self
        (mkParams None None None None (Some resolution))).

End uniform.

(** ** optools/mesh/adaptive.py

    Both stopping parameters are stored by the base class:
    [division = Parameter(default=1000)], [loss = Parameter(default=0.01)];
    the concrete class selects which of them drives the learner. *)

Module adaptive.

Inductive Class : Set :=
| DivisionAdaptive
| LossAdaptive.

Record AdaptiveMeshLine : Set := mkAdaptive {
  class_of : Class;
  start : Q;
  stop : Q;
  division : Z;
  loss : Q;
  binding : option Binding
}.

Definition default_division : Z := 1000.
Definition default_loss : Q := 1 # 100.

Definition construct (cls : Class) (start stop : Q)
    (division : option Z) (loss : option Q) : AdaptiveMeshLine :=
  mkAdaptive cls start stop
    (match division with Some d => d | None => default_division end)
    (match loss with Some l => l | None => default_loss end)
    None.

Definition DivisionAdaptiveMeshLine := construct DivisionAdaptive.
Definition LossAdaptiveMeshLine := construct LossAdaptive.

(** [self.__class__(self, start=..., stop=...)]. *)
Definition copy_with (self : AdaptiveMeshLine) (start stop : Q)
  : AdaptiveMeshLine :=
  mkAdaptive (class_of self) start stop (division self) (loss self) None.

Record Params : Set := mkParams {
  p_start : option Q;
  p_stop : option Q;
  p_division : option Z;
  p_loss : option Q
}.

Definition no_params : Params := mkParams None None None None.

Definition length (self : AdaptiveMeshLine) : Q :=
  Qabs (stop self - start self).

Definition with_params (self : AdaptiveMeshLine) (params : Params)
  : Withered AdaptiveMeshLine :=
  let start' :=
    match p_start params with Some s => s | None => start self end in
  let stop' :=
    match p_stop params with Some s => s | None => stop self end in
  let newobj :=
    match p_division params, p_loss params with
    | Some d, l => DivisionAdaptiveMeshLine start' stop' (Some d) l
    | None, Some l => LossAdaptiveMeshLine start' stop' None (Some l)
    | None, None => copy_with self start' stop'
    end in
  rebind (binding self) newobj.

Definition with_division (self : AdaptiveMeshLine) (division : option Z)
    (min_division max_division : option Z) : Withered AdaptiveMeshLine :=
  let division :=
    match division with
    | None => adaptive.division self
    | Some d => d
    end in
  let division := utils.clip division min_division max_division in
  with_params self (mkParams None None (Some division) None).

Definition with_loss (self : AdaptiveMeshLine) (loss : option Q)
    (min_loss max_loss : option Q) : Withered AdaptiveMeshLine :=
  let loss :=
    match loss with
    | None => adaptive.loss self
    | Some l => l
    end in
  let loss := utils.clip loss min_loss max_loss in
  with_params self (mkParams None None None (Some loss)).

End adaptive.

(** ** Python's [float]

    A float is a binary64 number.  [value x] is the rational a finite float
    stands for; [has_value x q] says that [x] is finite and stands for [q].
    [of_int] is the conversion of an [int] operand of a float operation,
    correctly rounded, refused when the integer is too large. *)

Module pyfloat.

Import PrimFloat FloatOps SpecFloat.

Definition value (x : float) : option Q :=
  match Prim2SF x with
  | S754_zero _ => Some 0
  | S754_finite s m e =>
      Some (inject_Z (if s then Z.neg m else Z.pos m) * Qpower 2 e)
  | S754_infinity _ | S754_nan => None
  end.


(** [float(n)], rounded to nearest even; an infinity when [n] is out of
    range. *)
Definition Z2float (n : Z) : float :=
  SF2Prim (binary_normalize prec emax n 0 false).

Definition of_int (n : Z) : result float :=
  let x := Z2float n in
  if is_infinity x then Raise OverflowError else Ok x.

(** [math.ceil(x)]. *)
Definition ceil (x : float) : result Z :=
  match value x with
  | Some v => Ok (Qceiling v)
  | None => if is_nan x then Raise ValueError else Raise OverflowError
  end.

(** [a / b] on floats. *)
Definition truediv (a b : float) : result float :=
  if (b =? 0)%float then Raise ZeroDivisionError else Ok (a / b)%float.

End pyfloat.

(** ** numpy.linspace on floats

    The same computation as [np.linspace], every operation in binary64. *)

Module np64.

Import PrimFloat.

Definition set_last (y : list float) (v : float) : list float :=
  removelast y ++ [v].

Definition linspace (start stop : float) (num : Z) : result (list float) :=
  if (num <? 0)%Z then Raise ValueError
  else
    let div := (num - 1)%Z in
    let delta := (stop - start)%float in
    if (0 <? div)%Z then
      let step := (delta / pyfloat.Z2float div)%float in
      let y :=
        if (step =? 0)%float then
          map (fun i =>
                 (pyfloat.Z2float i / pyfloat.Z2float div * delta + start)
                 %float)
              (np.arange num)
        else
          map (fun i => (pyfloat.Z2float i * step + start)%float)
              (np.arange num) in
      Ok (set_last y stop)
    else
      Ok (map (fun i => (pyfloat.Z2float i * delta + start)%float)
              (np.arange num)).

End np64.

(** ** optools/mesh/uniform.py on floats

    The classes of [uniform] with float parameters: [length] and the three
    views, as base.py and uniform.py compute them, and [points]. *)

Module uniform64.

Import PrimFloat.

Inductive Owned : Set :=
| OwnDivision (division : Z)
| OwnDensity (density : float)
| OwnResolution (resolution : float).

Record UniformMeshLine : Set := mkUniform {
  start : float;
  stop : float;
  owned : Owned;
  binding : option Binding
}.

(** [division = Parameter(default=1000)],
    [density = Parameter(default=1000)],
    [resolution = Parameter(default=1e-3)]. *)
Definition DivisionUniformMeshLine
    (start stop : float) (division : option Z) : UniformMeshLine :=
  mkUniform start stop
    (OwnDivision (match division with Some d => d | None => 1000%Z end))
    None.

Definition DensityUniformMeshLine
    (start stop : float) (density : option float) : UniformMeshLine :=
  mkUniform start stop
    (OwnDensity (match density with Some d => d | None => 1000%float end))
    None.

Definition ResolutionUniformMeshLine
    (start stop : float) (resolution : option float) : UniformMeshLine :=
  mkUniform start stop
    (OwnResolution
       (match resolution with
        | Some r => r
        | None => 0x1.0624dd2f1a9fcp-10%float
        end))
    None.

(** base.py: [length = abs(stop - start)]. *)
Definition length (self : UniformMeshLine) : float :=
  abs (stop self - start self)%float.

Definition division (self : UniformMeshLine) : result Z :=
  match owned self with
  | OwnDivision division => Ok division
  | OwnDensity density => pyfloat.ceil (density * length self + 1)%float
  | OwnResolution resolution =>
      q <- pyfloat.truediv (length self) resolution ;;
      pyfloat.ceil (q + 1)%float
  end.

Definition density (self : UniformMeshLine) : result float :=
  match owned self with
  | OwnDensity density => Ok density
  | OwnDivision _ | OwnResolution _ =>
      n <- division self ;;
      x <- pyfloat.of_int n ;;
      pyfloat.truediv x (length self)
  end.

Definition resolution (self : UniformMeshLine) : result float :=
  match owned self with
  | OwnResolution resolution => Ok resolution
  | OwnDivision _ | OwnDensity _ =>
      n <- division self ;;
      x <- pyfloat.of_int n ;;
      pyfloat.truediv (length self) x
  end.

Definition points (self : UniformMeshLine) : result (list float) :=
  n <- division self ;;
  np64.linspace (start self) (stop self) n.

End uniform64.

(** Two lists of points hold the same numbers. *)
Definition Qlist_eq : list Q -> list Q -> Prop := Forall2 Qeq.

(** * Properties *)

Import uniform.

(** ** Arithmetic of the embedding *)

Lemma truediv_nonzero (a b : Q) : ~ b == 0 -> truediv a b = Ok (a / b).
Proof.
  intros Hb. unfold truediv.
  destruct (Qeq_bool b 0) eqn:E; [|reflexivity].
  apply Qeq_bool_iff in E. contradiction.
Qed.

Lemma truediv_zero (a b : Q) : b == 0 -> truediv a b = Raise ZeroDivisionError.
Proof.
  intros Hb. unfold truediv.
  apply Qeq_bool_iff in Hb. now rewrite Hb.
Qed.

Lemma py_max_Z (a b : Z) : py_max a b = Z.max a b.
Proof.
  unfold py_max, py_lt, PyOrd_Z.
  destruct (Z.ltb_spec a b); lia.
Qed.

Lemma py_min_Z (a b : Z) : py_min a b = Z.min a b.
Proof.
  unfold py_min, py_lt, PyOrd_Z.
  destruct (Z.ltb_spec b a); lia.
Qed.

Lemma length_nonneg (self : UniformMeshLine) : 0 <= length self.
Proof. apply Qabs_nonneg. Qed.

Lemma length_degenerate (self : UniformMeshLine) :
  start self == stop self -> length self == 0.
Proof.
  intros H. unfold length.
  assert (E : stop self - start self == 0) by (rewrite H; ring).
  rewrite E. reflexivity.
Qed.

(** ** Clamping *)

Lemma clip_unbounded {A : Type} `{PyOrd A} (v : A) :
  utils.clip v None None = v.
Proof. reflexivity. Qed.

Lemma clip_Z (v : Z) (lo hi : option Z) :
  utils.clip v lo hi =
  let v := match lo with Some lo => Z.max v lo | None => v end in
  match hi with Some hi => Z.min v hi | None => v end.
Proof.
  unfold utils.clip.
  destruct lo, hi; cbn; now rewrite ?py_max_Z, ?py_min_Z.
Qed.

Lemma clip_Z_crossed (v lo hi : Z) :
  (hi < lo)%Z -> utils.clip v (Some lo) (Some hi) = hi.
Proof. intros H. rewrite clip_Z. cbn. lia. Qed.

Lemma clip_Q_crossed (v lo hi : Q) :
  hi < lo -> utils.clip v (Some lo) (Some hi) = hi.
Proof.
  intros H. unfold utils.clip, py_min, py_max, py_lt, PyOrd_Q.
  assert (Hlo : Qle_bool lo hi = false).
  { destruct (Qle_bool lo hi) eqn:E; [|reflexivity].
    apply Qle_bool_iff in E. lra. }
  destruct (Qle_bool lo v) eqn:Ev; cbn.
  - apply Qle_bool_iff in Ev.
    destruct (Qle_bool v hi) eqn:E; [|reflexivity].
    apply Qle_bool_iff in E. lra.
  - now rewrite Hlo.
Qed.

(** ** What [with_params] returns *)

Lemma with_params_unbound (self : UniformMeshLine) (params : Params) :
  binding self = None ->
  with_params self params = Bare (new_object (with_params self params)).
Proof. intros H. unfold with_params. now rewrite H. Qed.

Lemma with_params_bound (self : UniformMeshLine) (params : Params)
    (b : Binding) :
  binding self = Some b ->
  with_params self params =
  Rebound (transfer b (new_object (with_params self params))).
Proof. intros H. unfold with_params. now rewrite H. Qed.

Lemma new_object_rebind {M : Type} (b : option Binding) (newobj : M) :
  new_object (rebind b newobj) = newobj.
Proof. now destruct b. Qed.

Lemma with_params_division (self : UniformMeshLine) (d : Z) :
  new_object (with_params self (mkParams None None (Some d) None None)) =
  DivisionUniformMeshLine (start self) (stop self) (Some d).
Proof. unfold with_params. now rewrite new_object_rebind. Qed.

Lemma with_params_density (self : UniformMeshLine) (d : Q) :
  new_object (with_params self (mkParams None None None (Some d) None)) =
  DensityUniformMeshLine (start self) (stop self) (Some d).
Proof. unfold with_params. now rewrite new_object_rebind. Qed.

Lemma with_params_resolution (self : UniformMeshLine) (r : Q) :
  new_object (with_params self (mkParams None None None None (Some r))) =
  ResolutionUniformMeshLine (start self) (stop self) (Some r).
Proof. unfold with_params. now rewrite new_object_rebind. Qed.

(** C3. [with_params] picks the class of the new mesh from the overrides:
    [division] first, then [density], then [resolution], otherwise the class
    of [self]; the ends are those of [self] unless overridden.  The new mesh
    is the result itself for an unbound mesh and the field of the returned
    container for a bound one.  In particular [with_density(x)] gives a
    density-driven mesh whose density is [x], on the ends of [self]. *)
Theorem with_params_switches_family (self : UniformMeshLine) :
  (forall params : Params,
     let newobj := new_object (with_params self params) in
     with_params self params = rebind (binding self) newobj /\
     class_of newobj =
       match p_division params, p_density params, p_resolution params with
       | Some _, _, _ => DivisionUniform
       | None, Some _, _ => DensityUniform
       | None, None, Some _ => ResolutionUniform
       | None, None, None => class_of self
       end /\
     start newobj =
       match p_start params with Some s => s | None => start self end /\
     stop newobj =
       match p_stop params with Some s => s | None => stop self end) /\
  (forall x : Q,
     exists r,
       with_density self (Some x) None None = Ok r /\
       r = rebind (binding self) (new_object r) /\
       class_of (new_object r) = DensityUniform /\
       density (new_object r) = Ok x /\
       start (new_object r) = start self /\
       stop (new_object r) = stop self).
Proof.
  split.
  - intros params newobj. subst newobj. unfold with_params.
    rewrite new_object_rebind.
    destruct (p_division params), (p_density params), (p_resolution params);
      cbn; auto.
  - intros x. eexists. split; [reflexivity|].
    cbn -[with_params]. rewrite with_params_density.
    unfold with_params. cbn. auto.
Qed.

(** ** The withers of the uniform classes *)

Lemma with_division_given (self : UniformMeshLine) (v : Z)
    (lo hi : option Z) :
  exists r,
    with_division self (Some v) lo hi = Ok r /\
    r = rebind (binding self) (new_object r) /\
    class_of (new_object r) = DivisionUniform /\
    division (new_object r) = Ok (utils.clip v lo hi).
Proof.
  eexists. split; [reflexivity|].
  cbn -[with_params utils.clip]. rewrite with_params_division.
  unfold with_params. cbn -[utils.clip]. auto.
Qed.

Lemma with_density_given (self : UniformMeshLine) (v : Q)
    (lo hi : option Q) :
  exists r,
    with_density self (Some v) lo hi = Ok r /\
    r = rebind (binding self) (new_object r) /\
    class_of (new_object r) = DensityUniform /\
    density (new_object r) = Ok (utils.clip v lo hi).
Proof.
  eexists. split; [reflexivity|].
  cbn -[with_params utils.clip]. rewrite with_params_density.
  unfold with_params. cbn -[utils.clip]. auto.
Qed.

Lemma with_resolution_given (self : UniformMeshLine) (v : Q)
    (lo hi : option Q) :
  exists r,
    with_resolution self (Some v) lo hi = Ok r /\
    r = rebind (binding self) (new_object r) /\
    class_of (new_object r) = ResolutionUniform /\
    resolution (new_object r) = Ok (utils.clip v lo hi).
Proof.
  eexists. split; [reflexivity|].
  cbn -[with_params utils.clip]. rewrite with_params_resolution.
  unfold with_params. cbn -[utils.clip]. auto.
Qed.

Lemma with_division_omitted (self : UniformMeshLine) (n : Z)
    (lo hi : option Z) :
  division self = Ok n ->
  with_division self None lo hi = with_division self (Some n) lo hi.
Proof. intros H. unfold with_division. now rewrite H. Qed.

Lemma with_density_omitted (self : UniformMeshLine) (q : Q)
    (lo hi : option Q) :
  density self = Ok q ->
  with_density self None lo hi = with_density self (Some q) lo hi.
Proof. intros H. unfold with_density. now rewrite H. Qed.

Lemma with_resolution_omitted (self : UniformMeshLine) (q : Q)
    (lo hi : option Q) :
  resolution self = Ok q ->
  with_resolution self None lo hi = with_resolution self (Some q) lo hi.
Proof. intros H. unfold with_resolution. now rewrite H. Qed.

(** The derived division is defined except for a resolution-driven mesh of
    zero resolution. *)
Lemma division_defined (self : UniformMeshLine) :
  (forall r, owned self = OwnResolution r -> ~ r == 0) ->
  exists n, division self = Ok n.
Proof.
  intros Hr. unfold division.
  destruct (owned self) as [n | d | r]; eauto.
  rewrite truediv_nonzero by now apply Hr. cbn. eauto.
Qed.

(** C4. A wither called without a value takes the current value of its
    view, derived or not; the value is clamped by the minimum first and the
    maximum second, so crossed bounds give the maximum and absent bounds
    change nothing.  Hence [with_division(min_division=M)] has division
    [max(division, M)] and [with_division(max_division=M)] has division
    [min(division, M)]. *)
Theorem wither_clamping (self : UniformMeshLine) (n M : Z) :
  division self = Ok n ->
  (forall lo hi,
     with_division self None lo hi = with_division self (Some n) lo hi) /\
  (forall q lo hi, density self = Ok q ->
     with_density self None lo hi = with_density self (Some q) lo hi) /\
  (forall q lo hi, resolution self = Ok q ->
     with_resolution self None lo hi = with_resolution self (Some q) lo hi) /\
  (forall v lo hi, exists r,
     with_division self (Some v) lo hi = Ok r /\
     division (new_object r) =
       Ok (let v := match lo with Some lo => Z.max v lo | None => v end in
           match hi with Some hi => Z.min v hi | None => v end)) /\
  (forall v lo hi, exists r,
     with_density self (Some v) lo hi = Ok r /\
     density (new_object r) = Ok (utils.clip v lo hi)) /\
  (forall v lo hi, exists r,
     with_resolution self (Some v) lo hi = Ok r /\
     resolution (new_object r) = Ok (utils.clip v lo hi)) /\
  (forall v lo hi : Z,
     (hi < lo)%Z -> utils.clip v (Some lo) (Some hi) = hi) /\
  (forall v lo hi : Q,
     hi < lo -> utils.clip v (Some lo) (Some hi) = hi) /\
  (forall v : Z, utils.clip v None None = v) /\
  (forall v : Q, utils.clip v None None = v) /\
  (exists r,
     with_division self None (Some M) None = Ok r /\
     division (new_object r) = Ok (Z.max n M)) /\
  (exists r,
     with_division self None None (Some M) = Ok r /\
     division (new_object r) = Ok (Z.min n M)).
Proof.
  intros Hn. repeat split.
  - intros lo hi. now apply with_division_omitted.
  - intros q lo hi. apply with_density_omitted.
  - intros q lo hi. apply with_resolution_omitted.
  - intros v lo hi.
    destruct (with_division_given self v lo hi) as (r & Hr & _ & _ & Hd).
    exists r. split; [exact Hr|]. now rewrite Hd, clip_Z.
  - intros v lo hi.
    destruct (with_density_given self v lo hi) as (r & Hr & _ & _ & Hd).
    eauto.
  - intros v lo hi.
    destruct (with_resolution_given self v lo hi) as (r & Hr & _ & _ & Hd).
    eauto.
  - apply clip_Z_crossed.
  - apply clip_Q_crossed.
  - rewrite (with_division_omitted self n) by exact Hn.
    destruct (with_division_given self n (Some M) None)
      as (r & Hr & _ & _ & Hd).
    exists r. split; [exact Hr|]. now rewrite Hd, clip_Z.
  - rewrite (with_division_omitted self n) by exact Hn.
    destruct (with_division_given self n None (Some M))
      as (r & Hr & _ & _ & Hd).
    exists r. split; [exact Hr|]. now rewrite Hd, clip_Z.
Qed.

Lemma wither_clamping_witness :
  let self := DensityUniformMeshLine 5 10 (Some 8) in
  division self = Ok 41%Z /\
  (exists r,
     with_division self None (Some 100%Z) None = Ok r /\
     division (new_object r) = Ok 100%Z) /\
  (exists r,
     with_division self None None (Some 5%Z) = Ok r /\
     division (new_object r) = Ok 5%Z).
Proof.
  intros self. split; [reflexivity|]. split.
  - apply (wither_clamping self 41 100 eq_refl).
  - apply (wither_clamping self 41 5 eq_refl).
Defined.

(** C8. Overriding the division by its current value gives a division-driven
    mesh with the same division, whatever the class of the mesh. *)
Theorem with_division_roundtrip (self : UniformMeshLine) (n : Z) :
  division self = Ok n ->
  exists r,
    with_division self (Some n) None None = Ok r /\
    division (new_object r) = Ok n.
Proof.
  intros _.
  destruct (with_division_given self n None None) as (r & Hr & _ & _ & Hd).
  exists r. split; [exact Hr|]. now rewrite Hd.
Qed.

Lemma with_division_roundtrip_witness :
  let self := ResolutionUniformMeshLine 5 10 (Some (1 # 2)) in
  division self = Ok 11%Z /\
  exists r,
    with_division self (Some 11%Z) None None = Ok r /\
    division (new_object r) = Ok 11%Z.
Proof.
  intros self. split; [reflexivity|].
  exact (with_division_roundtrip self 11 eq_refl).
Defined.

(** ** The withers of the adaptive classes *)

Lemma adaptive_with_division_new (self : adaptive.AdaptiveMeshLine)
    (v : option Z) (lo hi : option Z) :
  new_object (adaptive.with_division self v lo hi) =
  adaptive.DivisionAdaptiveMeshLine
    (adaptive.start self) (adaptive.stop self)
    (Some (utils.clip
             (match v with Some d => d | None => adaptive.division self end)
             lo hi))
    None.
Proof.
  unfold adaptive.with_division, adaptive.with_params.
  now rewrite new_object_rebind.
Qed.

Lemma adaptive_with_loss_new (self : adaptive.AdaptiveMeshLine)
    (v : option Q) (lo hi : option Q) :
  new_object (adaptive.with_loss self v lo hi) =
  adaptive.LossAdaptiveMeshLine
    (adaptive.start self) (adaptive.stop self) None
    (Some (utils.clip
             (match v with Some l => l | None => adaptive.loss self end)
             lo hi)).
Proof.
  unfold adaptive.with_loss, adaptive.with_params.
  now rewrite new_object_rebind.
Qed.

(** C9. On an adaptive mesh [with_division] gives a division-driven mesh and
    [with_loss] a loss-driven mesh, each holding the supplied (or current)
    value after clamping; [with_params] without [division] and [loss] keeps
    the class and both stored values.  The mesh
    [LossAdaptiveMeshLine(start=-1, stop=1, loss=0.01).with_division(1000)]
    is division-driven with division 1000. *)
Theorem adaptive_withers_switch_family (self : adaptive.AdaptiveMeshLine) :
  (forall v lo hi,
     let r := adaptive.with_division self v lo hi in
     r = rebind (adaptive.binding self) (new_object r) /\
     adaptive.class_of (new_object r) = adaptive.DivisionAdaptive /\
     adaptive.division (new_object r) =
       utils.clip
         (match v with Some d => d | None => adaptive.division self end)
         lo hi) /\
  (forall v lo hi,
     let r := adaptive.with_loss self v lo hi in
     r = rebind (adaptive.binding self) (new_object r) /\
     adaptive.class_of (new_object r) = adaptive.LossAdaptive /\
     adaptive.loss (new_object r) =
       utils.clip
         (match v with Some l => l | None => adaptive.loss self end)
         lo hi) /\
  (forall s e,
     let r := adaptive.with_params self (adaptive.mkParams s e None None) in
     r = rebind (adaptive.binding self) (new_object r) /\
     adaptive.class_of (new_object r) = adaptive.class_of self /\
     adaptive.division (new_object r) = adaptive.division self /\
     adaptive.loss (new_object r) = adaptive.loss self) /\
  (let mesh := adaptive.LossAdaptiveMeshLine (-1) 1 None (Some (1 # 100)) in
   exists newobj,
     adaptive.with_division mesh (Some 1000%Z) None None = Bare newobj /\
     adaptive.class_of newobj = adaptive.DivisionAdaptive /\
     adaptive.division newobj = 1000%Z).
Proof.
  repeat split.
  - unfold adaptive.with_division, adaptive.with_params.
    now rewrite new_object_rebind.
  - now rewrite adaptive_with_division_new.
  - now rewrite adaptive_with_division_new.
  - unfold adaptive.with_loss, adaptive.with_params.
    now rewrite new_object_rebind.
  - now rewrite adaptive_with_loss_new.
  - now rewrite adaptive_with_loss_new.
  - unfold adaptive.with_params. now rewrite new_object_rebind.
  - unfold adaptive.with_params. now rewrite new_object_rebind.
  - unfold adaptive.with_params. now rewrite new_object_rebind.
  - unfold adaptive.with_params. now rewrite new_object_rebind.
  - eexists. repeat split.
Qed.

(** ** The example mesh of the tests: 11 points from 5 to 10 *)

Lemma result_Ok_inj {A : Type} (a b : A) : Ok a = Ok b -> a = b.
Proof. now intros [= ->]. Qed.

(** C5, as stated, fails: with 11 points over a length of 5 the density view
    is not 2 and the resolution view is not 1/2. *)
Lemma division_mesh_example_counterexample :
  let mesh := DivisionUniformMeshLine 5 10 (Some 11%Z) in
  ~ (points mesh = np.linspace 5 10 11 /\
     (exists q, density mesh = Ok q /\ q == 2) /\
     (exists q, resolution mesh = Ok q /\ q == 1 # 2)).
Proof.
  intros mesh (_ & (q & Hq & Hq2) & _).
  apply result_Ok_inj in Hq. subst q. discriminate Hq2.
Qed.

(** C5, amended.  [DivisionUniformMeshLine(start=5, stop=10, division=11)]
    has the points of [linspace(5, 10, 11)], that is 5, 5.5, ..., 10; its
    density view is [11 / 5 = 2.2] and its resolution view is [5 / 11]. *)
Theorem division_mesh_example :
  let mesh := DivisionUniformMeshLine 5 10 (Some 11%Z) in
  points mesh = np.linspace 5 10 11 /\
  (exists pts,
     points mesh = Ok pts /\
     Qlist_eq pts
       [5; 11 # 2; 6; 13 # 2; 7; 15 # 2; 8; 17 # 2; 9; 19 # 2; 10]) /\
  (exists q, density mesh = Ok q /\ q == 22 # 10) /\
  (exists q, resolution mesh = Ok q /\ q == 5 # 11).
Proof.
  intros mesh. split; [reflexivity|]. split; [|split].
  - eexists. split; [reflexivity|].
    repeat (constructor; [reflexivity|]). constructor.
  - eexists. split; [reflexivity|]. reflexivity.
  - eexists. split; [reflexivity|]. reflexivity.
Qed.

(** ** Degenerate intervals: [start == stop] *)

(** C7, as stated, fails: on a degenerate interval the derived division of a
    density-driven mesh and of a resolution-driven mesh is 1, not an
    error. *)
Lemma degenerate_division_counterexample :
  let dens := DensityUniformMeshLine 5 5 (Some 8) in
  let res := ResolutionUniformMeshLine 5 5 (Some (1 # 2)) in
  start dens == stop dens /\ start res == stop res /\
  ~ (division dens = Raise ZeroDivisionError /\
     division res = Raise ZeroDivisionError).
Proof.
  intros dens res. split; [reflexivity|]. split; [reflexivity|].
  intros [H _]. discriminate H.
Qed.

(** C7, amended.  With [start == stop] the length is zero and the derived
    division is 1: for every density, and for every non-zero resolution.
    Only a zero resolution makes it fail with a division by zero. *)
Theorem degenerate_division (self : UniformMeshLine) :
  start self == stop self ->
  (forall d, owned self = OwnDensity d -> division self = Ok 1%Z) /\
  (forall r, owned self = OwnResolution r -> ~ r == 0 ->
     division self = Ok 1%Z) /\
  (forall r, owned self = OwnResolution r -> r == 0 ->
     division self = Raise ZeroDivisionError).
Proof.
  intros Hdeg. pose proof (length_degenerate self Hdeg) as Hlen.
  repeat split.
  - intros d Hown. unfold division. rewrite Hown. f_equal.
    assert (E : d * length self + 1 == 1) by (rewrite Hlen; ring).
    now rewrite E.
  - intros r Hown Hr. unfold division. rewrite Hown.
    rewrite truediv_nonzero by exact Hr. cbn. f_equal.
    assert (E : length self / r + 1 == 1) by (rewrite Hlen; field; exact Hr).
    now rewrite E.
  - intros r Hown Hr. unfold division. rewrite Hown.
    now rewrite truediv_zero.
Qed.

Lemma degenerate_division_witness :
  let self := DensityUniformMeshLine 5 5 (Some 8) in
  start self == stop self /\ division self = Ok 1%Z.
Proof.
  intros self. split; [reflexivity|].
  exact (proj1 (degenerate_division self (Qeq_refl _)) 8 eq_refl).
Defined.

(** ** Evenly spaced points *)

Lemma arange_length (n : Z) : List.length (np.arange n) = Z.to_nat n.
Proof. unfold np.arange. now rewrite length_map, length_seq. Qed.

Lemma arange_nth (n : Z) (i : nat) :
  (i < Z.to_nat n)%nat -> nth i (np.arange n) 0%Z = Z.of_nat i.
Proof.
  intros Hi. unfold np.arange.
  change 0%Z with (Z.of_nat 0). rewrite map_nth.
  now rewrite seq_nth.
Qed.

Lemma set_last_length (y : list Q) (v : Q) :
  y <> [] -> List.length (np.set_last y v) = List.length y.
Proof.
  intros Hy. unfold np.set_last.
  rewrite length_app, removelast_firstn_len, length_firstn. cbn.
  destruct y; [contradiction | cbn; lia].
Qed.

Lemma set_last_nth_front (y : list Q) (v : Q) (i : nat) :
  (S i < List.length y)%nat -> nth i (np.set_last y v) 0 = nth i y 0.
Proof.
  intros Hi. unfold np.set_last.
  rewrite removelast_firstn_len.
  rewrite app_nth1 by (rewrite length_firstn; lia).
  rewrite nth_firstn.
  destruct (Nat.ltb_spec i (Nat.pred (List.length y))); [reflexivity | lia].
Qed.

Lemma set_last_nth_last (y : list Q) (v : Q) :
  nth (List.length y - 1) (np.set_last y v) 0 = v.
Proof.
  unfold np.set_last.
  rewrite removelast_firstn_len.
  rewrite app_nth2 by (rewrite length_firstn; lia).
  rewrite length_firstn.
  replace (List.length y - 1 - Nat.min (Nat.pred (List.length y))
             (List.length y))%nat with 0%nat by lia.
  reflexivity.
Qed.

Lemma map_arange_nth (f : Z -> Q) (n : Z) (i : nat) :
  (i < Z.to_nat n)%nat ->
  nth i (map f (np.arange n)) 0 = f (Z.of_nat i).
Proof.
  intros Hi.
  rewrite (nth_indep _ 0 (f 0%Z)) by now rewrite length_map, arange_length.
  now rewrite map_nth, arange_nth.
Qed.

(** With at least two samples, sample [i] is [start + i * step]. *)
Lemma linspace_samples (s e : Q) (n : Z) :
  (2 <= n)%Z ->
  exists pts,
    np.linspace s e n = Ok pts /\
    List.length pts = Z.to_nat n /\
    forall i, (i < Z.to_nat n)%nat ->
      nth i pts 0 == s + inject_Z (Z.of_nat i) * ((e - s) / inject_Z (n - 1)).
Proof.
  intros Hn. unfold np.linspace.
  destruct (Z.ltb_spec n 0); [lia|].
  destruct (Z.ltb_spec 0 (n - 1)); [|lia].
  assert (Hdiv : ~ inject_Z (n - 1) == 0).
  { intros E. assert (L : 0 < inject_Z (n - 1)).
    { change 0 with (inject_Z 0). rewrite <- Zlt_Qlt. lia. }
    lra. }
  set (step := (e - s) / inject_Z (n - 1)).
  set (y := if Qeq_bool step 0 then _ else _).
  assert (Hlen : List.length y = Z.to_nat n).
  { subst y. destruct (Qeq_bool step 0);
      now rewrite length_map, arange_length. }
  assert (Hy : forall i, (i < Z.to_nat n)%nat ->
            nth i y 0 == s + inject_Z (Z.of_nat i) * step).
  { intros i Hi. subst y. destruct (Qeq_bool step 0);
      rewrite map_arange_nth by exact Hi; subst step; field; exact Hdiv. }
  exists (np.set_last y e). split; [reflexivity|]. split.
  - rewrite set_last_length; [exact Hlen|].
    intros E. rewrite E in Hlen. cbn in Hlen. lia.
  - intros i Hi.
    destruct (Nat.eq_dec i (List.length y - 1)) as [-> | Hne].
    + rewrite set_last_nth_last. rewrite Hlen.
      replace (Z.of_nat (Z.to_nat n - 1)) with (n - 1)%Z by lia.
      subst step. field. exact Hdiv.
    + rewrite set_last_nth_front by lia. now apply Hy.
Qed.

(** On a degenerate interval every sample is [start]. *)
Lemma linspace_degenerate (s e : Q) (n : Z) :
  s == e ->
  (0 <= n)%Z ->
  exists pts,
    np.linspace s e n = Ok pts /\
    List.length pts = Z.to_nat n /\
    Forall (fun p => p == s) pts.
Proof.
  intros Hse Hn.
  destruct (Z.le_gt_cases 2 n) as [H2 | H2].
  - destruct (linspace_samples s e n H2) as (pts & Hpts & Hlen & Hnth).
    exists pts. split; [exact Hpts|]. split; [exact Hlen|].
    apply Forall_nth. intros i d Hi.
    rewrite (nth_indep _ d 0) by exact Hi.
    rewrite Hnth by lia.
    assert (E : e - s == 0) by (rewrite Hse; ring).
    rewrite E. unfold Qdiv. ring.
  - unfold np.linspace.
    destruct (Z.ltb_spec n 0); [lia|].
    destruct (Z.ltb_spec 0 (n - 1)); [lia|].
    eexists. split; [reflexivity|]. split.
    + now rewrite length_map, arange_length.
    + apply Forall_forall. intros p Hp.
      apply in_map_iff in Hp. destruct Hp as (i & <- & _).
      rewrite Hse. ring.
Qed.


(** ** A division-driven mesh on a degenerate interval *)

Lemma inject_Z_nonzero (n : Z) : n <> 0%Z -> ~ inject_Z n == 0.
Proof. intros Hn E. unfold Qeq in E. cbn in E. lia. Qed.

Lemma linspace_negative (s e : Q) (n : Z) :
  (n < 0)%Z -> np.linspace s e n = Raise ValueError.
Proof.
  intros Hn. unfold np.linspace.
  destruct (Z.ltb_spec n 0); [reflexivity | lia].
Qed.

(** C10, as stated, fails: with [start == stop] the density view of a
    division-driven mesh raises, but its resolution view is [0 / division],
    which is 0. *)
Lemma degenerate_views_counterexample :
  let mesh := DivisionUniformMeshLine 5 5 (Some 3%Z) in
  start mesh == stop mesh /\
  ~ (density mesh = Raise ZeroDivisionError /\
     resolution mesh = Raise ZeroDivisionError).
Proof.
  intros mesh. split; [reflexivity|].
  intros [_ H]. discriminate H.
Qed.

(** C10, amended.  For a division-driven mesh with [start == stop]:
    with a division that is not negative, [points] is [division] copies of
    [start] and [evaluate] returns these points with the function applied to
    them (a negative division is refused by [linspace]); the density view
    fails with a division by zero; the resolution view is 0 unless the
    division itself is 0. *)
Theorem degenerate_division_mesh (self : UniformMeshLine) (n : Z) :
  owned self = OwnDivision n ->
  start self == stop self ->
  ((0 <= n)%Z ->
   exists pts,
     points self = Ok pts /\
     List.length pts = Z.to_nat n /\
     Forall (fun p => p == start self) pts /\
     forall (B : Type) (func : list Q -> B),
       evaluate self func = Ok (pts, func pts)) /\
  ((n < 0)%Z -> points self = Raise ValueError) /\
  density self = Raise ZeroDivisionError /\
  (n <> 0%Z -> exists q, resolution self = Ok q /\ q == 0) /\
  (n = 0%Z -> resolution self = Raise ZeroDivisionError).
Proof.
  intros Hown Hdeg.
  pose proof (length_degenerate self Hdeg) as Hlen.
  assert (Hdiv : division self = Ok n).
  { unfold division. now rewrite Hown. }
  split; [|split; [|split; [|split]]].
  - intros Hn.
    destruct (linspace_degenerate (start self) (stop self) n Hdeg Hn)
      as (pts & Hpts & Hsize & Hall).
    assert (Hp : points self = Ok pts).
    { unfold points. rewrite Hdiv. exact Hpts. }
    exists pts. repeat split; try assumption.
    intros B func. unfold evaluate. now rewrite Hp.
  - intros Hn. unfold points. rewrite Hdiv. cbn [bind].
    now apply linspace_negative.
  - unfold density. rewrite Hown, Hdiv. cbn [bind].
    now apply truediv_zero.
  - intros Hn. unfold resolution. rewrite Hown, Hdiv. cbn [bind].
    rewrite truediv_nonzero by now apply inject_Z_nonzero.
    eexists. split; [reflexivity|].
    rewrite Hlen. field. now apply inject_Z_nonzero.
  - intros ->. unfold resolution. rewrite Hown, Hdiv. cbn [bind].
    now apply truediv_zero.
Qed.

Lemma degenerate_division_mesh_witness :
  let self := DivisionUniformMeshLine 5 5 (Some 3%Z) in
  owned self = OwnDivision 3 /\ start self == stop self /\
  density self = Raise ZeroDivisionError /\
  exists q, resolution self = Ok q /\ q == 0.
Proof.
  intros self. split; [reflexivity|]. split; [reflexivity|].
  destruct (degenerate_division_mesh self 3 eq_refl (Qeq_refl _))
    as (_ & _ & Hdens & Hres & _).
  split; [exact Hdens|]. apply Hres. discriminate.
Defined.

(** * Further properties of the code *)

(** ** [clip] *)

Lemma py_max_Q_cases (a b : Q) :
  (py_max a b = a /\ b <= a) \/ (py_max a b = b /\ a < b).
Proof.
  unfold py_max, py_lt, PyOrd_Q.
  destruct (Qle_bool b a) eqn:E; cbn.
  - left. split; [reflexivity|]. now apply Qle_bool_iff.
  - right. split; [reflexivity|]. apply Qnot_le_lt. intros H.
    apply Qle_bool_iff in H. congruence.
Qed.

Lemma py_min_Q_cases (a b : Q) :
  (py_min a b = a /\ a <= b) \/ (py_min a b = b /\ b < a).
Proof.
  unfold py_min, py_lt, PyOrd_Q.
  destruct (Qle_bool a b) eqn:E; cbn.
  - left. split; [reflexivity|]. now apply Qle_bool_iff.
  - right. split; [reflexivity|]. apply Qnot_le_lt. intros H.
    apply Qle_bool_iff in H. congruence.
Qed.

(** X1. With bounds in order, [clip] on integers lands between them; it
    leaves a value already in range unchanged, and it never exceeds a given
    maximum, whatever the minimum. *)
Theorem clip_int_in_range (v lo hi : Z) :
  (lo <= hi)%Z ->
  (lo <= utils.clip v (Some lo) (Some hi) <= hi)%Z /\
  ((lo <= v <= hi)%Z -> utils.clip v (Some lo) (Some hi) = v) /\
  (forall lo', (utils.clip v lo' (Some hi) <= hi)%Z) /\
  (v <= utils.clip v (Some lo) None)%Z /\
  (lo <= utils.clip v (Some lo) None)%Z.
Proof.
  intros H. split; [|split; [|split]].
  - rewrite clip_Z. cbn. lia.
  - rewrite clip_Z. cbn. lia.
  - intros lo'. rewrite clip_Z. destruct lo'; cbn; lia.
  - rewrite clip_Z. cbn. lia.
Qed.

Lemma clip_int_in_range_witness :
  (5 <= 100)%Z /\ (5 <= utils.clip 1000%Z (Some 5%Z) (Some 100%Z) <= 100)%Z.
Proof.
  split; [lia|]. apply (clip_int_in_range 1000 5 100). lia.
Defined.

(** X2. The same on rationals (densities, resolutions, losses): with bounds
    in order the clipped value lies between them, and a value in range is
    returned as it is. *)
Theorem clip_rational_in_range (v lo hi : Q) :
  lo <= hi ->
  lo <= utils.clip v (Some lo) (Some hi) <= hi /\
  (lo <= v <= hi -> utils.clip v (Some lo) (Some hi) = v) /\
  (forall lo', utils.clip v lo' (Some hi) <= hi).
Proof.
  intros H. unfold utils.clip. repeat split.
  - destruct (py_max_Q_cases v lo) as [[-> ?] | [-> ?]];
      destruct (py_min_Q_cases v hi) as [[E ?] | [E ?]];
      destruct (py_min_Q_cases lo hi) as [[E' ?] | [E' ?]];
      rewrite ?E, ?E'; lra.
  - destruct (py_max_Q_cases v lo) as [[-> ?] | [-> ?]];
      destruct (py_min_Q_cases v hi) as [[E ?] | [E ?]];
      destruct (py_min_Q_cases lo hi) as [[E' ?] | [E' ?]];
      rewrite ?E, ?E'; lra.
  - intros [Hlo Hhi].
    destruct (py_max_Q_cases v lo) as [[-> ?] | [-> ?]]; [|lra].
    destruct (py_min_Q_cases v hi) as [[-> ?] | [-> ?]]; [reflexivity|lra].
  - intros lo'.
    set (w := match lo' with Some m => py_max v m | None => v end).
    destruct (py_min_Q_cases w hi) as [[-> ?] | [-> ?]]; lra.
Qed.

Lemma clip_rational_in_range_witness :
  1 # 10 <= 2 /\
  1 # 10 <= utils.clip (1 # 2) (Some (1 # 10)) (Some 2) <= 2.
Proof.
  split; [discriminate|]. apply (clip_rational_in_range (1 # 2) (1 # 10) 2).
  discriminate.
Defined.

(** X3. Clipping twice with the same bounds is clipping once, on integers
    and on rationals, whether or not the bounds are in order. *)
Theorem clip_idempotent :
  (forall (v : Z) lo hi,
     utils.clip (utils.clip v lo hi) lo hi = utils.clip v lo hi) /\
  (forall (v : Q) lo hi,
     utils.clip (utils.clip v lo hi) lo hi = utils.clip v lo hi).
Proof.
  split.
  - intros v lo hi. rewrite !clip_Z. destruct lo, hi; cbn; lia.
  - intros v lo hi. unfold utils.clip.
    destruct lo as [lo|], hi as [hi|]; try reflexivity.
    + destruct (py_max_Q_cases v lo) as [[E1 ?] | [E1 ?]]; rewrite E1;
        destruct (py_min_Q_cases v hi) as [[E2 ?] | [E2 ?]];
        destruct (py_min_Q_cases lo hi) as [[E3 ?] | [E3 ?]];
        rewrite ?E2, ?E3;
        destruct (py_max_Q_cases v lo) as [[E4 ?] | [E4 ?]];
        destruct (py_max_Q_cases hi lo) as [[E5 ?] | [E5 ?]];
        destruct (py_max_Q_cases lo lo) as [[E6 ?] | [E6 ?]];
        rewrite ?E4, ?E5, ?E6, ?E2, ?E3;
        destruct (py_min_Q_cases hi hi) as [[E7 ?] | [E7 ?]];
        rewrite ?E7; try reflexivity; try lra.
    + destruct (py_max_Q_cases v lo) as [[E1 ?] | [E1 ?]]; rewrite E1;
        destruct (py_max_Q_cases v lo) as [[E4 ?] | [E4 ?]];
        destruct (py_max_Q_cases lo lo) as [[E6 ?] | [E6 ?]];
        rewrite ?E4, ?E6; try reflexivity; try lra.
    + destruct (py_min_Q_cases v hi) as [[E1 ?] | [E1 ?]]; rewrite E1;
        destruct (py_min_Q_cases v hi) as [[E4 ?] | [E4 ?]];
        destruct (py_min_Q_cases hi hi) as [[E6 ?] | [E6 ?]];
        rewrite ?E4, ?E6; try reflexivity; try lra.
Qed.

(** ** The points of a uniform mesh *)


(** ** Changing the governing view *)

Lemma with_density_new (self : UniformMeshLine) (q : Q) :
  density self = Ok q ->
  exists r,
    with_density self None None None = Ok r /\
    new_object r = DensityUniformMeshLine (start self) (stop self) (Some q).
Proof.
  intros H. unfold with_density. rewrite H. cbn [bind].
  eexists. split; [reflexivity|].
  unfold utils.clip. apply with_params_density.
Qed.

Lemma with_resolution_new (self : UniformMeshLine) (q : Q) :
  resolution self = Ok q ->
  exists r,
    with_resolution self None None None = Ok r /\
    new_object r =
      ResolutionUniformMeshLine (start self) (stop self) (Some q).
Proof.
  intros H. unfold with_resolution. rewrite H. cbn [bind].
  eexists. split; [reflexivity|].
  unfold utils.clip. apply with_params_resolution.
Qed.

(** X12. A wither of the governing view called without value and without
    bounds rebuilds the same mesh: same class, same ends, same stored
    parameter. *)
Theorem wither_of_owned_view_is_identity (self : UniformMeshLine) :
  exists r,
    match owned self with
    | OwnDivision _ => with_division self None None None = Ok r
    | OwnDensity _ => with_density self None None None = Ok r
    | OwnResolution _ => with_resolution self None None None = Ok r
    end /\
    start (new_object r) = start self /\
    stop (new_object r) = stop self /\
    owned (new_object r) = owned self.
Proof.
  destruct (owned self) as [n | d | q] eqn:Hown.
  - destruct (with_division_given self n None None) as (r & Hr & _).
    exists r. split.
    + rewrite <- Hr. apply with_division_omitted.
      unfold division. now rewrite Hown.
    + unfold with_division in Hr. cbn [bind] in Hr.
      apply result_Ok_inj in Hr. subst r.
      rewrite with_params_division. auto.
  - assert (Hd : density self = Ok d).
    { unfold density. now rewrite Hown. }
    destruct (with_density_new self d Hd) as (r & Hr & Hnew).
    exists r. split; [exact Hr|]. rewrite Hnew. auto.
  - assert (Hq : resolution self = Ok q).
    { unfold resolution. now rewrite Hown. }
    destruct (with_resolution_new self q Hq) as (r & Hr & Hnew).
    exists r. split; [exact Hr|]. rewrite Hnew. auto.
Qed.

(** X13. Two [with_params] in a row.  The ends come from the second call,
    else from the first, else from the mesh; the class and the stored
    parameter come from the second call whenever it names a governing view,
    and from the first call's result otherwise.  This is not the single
    call with both sets of overrides: [with_params(division=d)] followed by
    [with_params(density=x)] is density-driven, while
    [with_params(division=d, density=x)] is division-driven. *)
Theorem with_params_twice (self : UniformMeshLine) :
  (forall p q : Params,
     let first := new_object (with_params self p) in
     let second := new_object (with_params first q) in
     start second =
       match p_start q, p_start p with
       | Some s, _ => s
       | None, Some s => s
       | None, None => start self
       end /\
     stop second =
       match p_stop q, p_stop p with
       | Some s, _ => s
       | None, Some s => s
       | None, None => stop self
       end /\
     owned second =
       match p_division q, p_density q, p_resolution q with
       | None, None, None => owned first
       | _, _, _ => owned (new_object (with_params self q))
       end) /\
  (forall (d : Z) (x : Q),
     let first :=
       new_object (with_params self (mkParams None None (Some d) None None)) in
     class_of
       (new_object
          (with_params first (mkParams None None None (Some x) None))) =
       DensityUniform /\
     class_of
       (new_object
          (with_params self (mkParams None None (Some d) (Some x) None))) =
       DivisionUniform).
Proof.
  split.
  - intros p q first second. subst first second.
    unfold with_params. rewrite !new_object_rebind.
    destruct (p_start q), (p_stop q), (p_start p), (p_stop p),
      (p_division q), (p_density q), (p_resolution q),
      (p_division p), (p_density p), (p_resolution p); cbn; auto.
  - intros d x first. subst first.
    unfold with_params. rewrite !new_object_rebind. cbn. auto.
Qed.

(** ** Adaptive meshes: what a change of class forgets *)

(** X15. [with_division] on an adaptive mesh builds the new mesh from the
    ends and the division alone, so its loss is the default 0.01 whatever
    the loss of the mesh was; and [with_loss] leaves the division at the
    default 1000.  Hence [with_loss(l)] followed by [with_division()] has
    division 1000, not the division of the mesh one started from. *)
Theorem adaptive_wither_resets_other_parameter
    (self : adaptive.AdaptiveMeshLine) :
  (forall v lo hi,
     adaptive.loss (new_object (adaptive.with_division self v lo hi)) =
       adaptive.default_loss) /\
  (forall v lo hi,
     adaptive.division (new_object (adaptive.with_loss self v lo hi)) =
       adaptive.default_division) /\
  (forall v lo hi,
     let lossy := new_object (adaptive.with_loss self v lo hi) in
     adaptive.division
       (new_object (adaptive.with_division lossy None None None)) =
       1000%Z) /\
  (forall v lo hi,
     adaptive.start (new_object (adaptive.with_division self v lo hi)) =
       adaptive.start self /\
     adaptive.stop (new_object (adaptive.with_division self v lo hi)) =
       adaptive.stop self).
Proof.
  repeat split; intros; try subst lossy;
    rewrite ?adaptive_with_division_new, ?adaptive_with_loss_new;
    reflexivity.
Qed.

(** ** Errors of the withers and of [evaluate] *)

(** X16. On a degenerate interval, for a mesh that is not density-driven:
    [with_density()] without a value raises the division by zero of the
    density view, whatever the bounds, while [with_density(v)] with a value
    succeeds. *)
Theorem with_density_on_degenerate_interval (self : UniformMeshLine) :
  start self == stop self ->
  class_of self <> DensityUniform ->
  (forall lo hi, with_density self None lo hi = Raise ZeroDivisionError) /\
  (forall v lo hi, exists r,
     with_density self (Some v) lo hi = Ok r /\
     density (new_object r) = Ok (utils.clip v lo hi)).
Proof.
  intros Hdeg Hcls. pose proof (length_degenerate self Hdeg) as Hlen.
  split.
  - intros lo hi. unfold with_density.
    assert (Hd : density self = Raise ZeroDivisionError).
    { unfold density, division. unfold class_of in Hcls.
      destruct (owned self) as [n | d | r]; try congruence; cbn [bind].
      - now apply truediv_zero.
      - unfold truediv at 1. destruct (Qeq_bool r 0); [reflexivity|].
        cbn [bind]. now apply truediv_zero. }
    now rewrite Hd.
  - intros v lo hi.
    destruct (with_density_given self v lo hi) as (r & Hr & _ & _ & Hd).
    eauto.
Qed.

Lemma with_density_on_degenerate_interval_witness :
  let self := DivisionUniformMeshLine 5 5 (Some 3%Z) in
  start self == stop self /\ class_of self <> DensityUniform /\
  with_density self None None None = Raise ZeroDivisionError.
Proof.
  intros self. split; [reflexivity|]. split; [discriminate|].
  apply (with_density_on_degenerate_interval self (Qeq_refl _)).
  discriminate.
Defined.

(** X17. On a degenerate interval a division-driven mesh with a non-zero
    division accepts [with_resolution()]: the result is resolution-driven
    with resolution 0, and reading its division or its points raises a
    division by zero. *)
Theorem with_resolution_on_degenerate_interval
    (self : UniformMeshLine) (n : Z) :
  owned self = OwnDivision n ->
  n <> 0%Z ->
  start self == stop self ->
  exists r q,
    with_resolution self None None None = Ok r /\
    class_of (new_object r) = ResolutionUniform /\
    resolution (new_object r) = Ok q /\ q == 0 /\
    division (new_object r) = Raise ZeroDivisionError /\
    points (new_object r) = Raise ZeroDivisionError.
Proof.
  intros Hown Hn Hdeg. pose proof (length_degenerate self Hdeg) as Hlen.
  pose proof (inject_Z_nonzero n Hn) as Hn'.
  assert (Hq : resolution self = Ok (length self / inject_Z n)).
  { unfold resolution, division. rewrite Hown. cbn [bind].
    now apply truediv_nonzero. }
  assert (Hzero : length self / inject_Z n == 0).
  { rewrite Hlen. field. exact Hn'. }
  destruct (with_resolution_new self _ Hq) as (r & Hr & Hnew).
  exists r, (length self / inject_Z n).
  split; [exact Hr|]. rewrite Hnew.
  assert (Hdiv : division
            (ResolutionUniformMeshLine (start self) (stop self)
               (Some (length self / inject_Z n))) =
          Raise ZeroDivisionError).
  { unfold division. cbn [owned ResolutionUniformMeshLine].
    now rewrite truediv_zero. }
  repeat split; try assumption.
  unfold points. now rewrite Hdiv.
Qed.

Lemma with_resolution_on_degenerate_interval_witness :
  let self := DivisionUniformMeshLine 5 5 (Some 3%Z) in
  owned self = OwnDivision 3 /\ 3%Z <> 0%Z /\ start self == stop self /\
  exists r q,
    with_resolution self None None None = Ok r /\
    class_of (new_object r) = ResolutionUniform /\
    resolution (new_object r) = Ok q /\ q == 0 /\
    division (new_object r) = Raise ZeroDivisionError /\
    points (new_object r) = Raise ZeroDivisionError.
Proof.
  intros self. split; [reflexivity|]. split; [discriminate|].
  split; [reflexivity|].
  exact (with_resolution_on_degenerate_interval self 3 eq_refl
           ltac:(discriminate) (Qeq_refl _)).
Defined.




(** ** More on clamping *)

(** X19. On an adaptive mesh [with_division(min_division=M)] has division
    [max(division, M)] and [with_division(max_division=M)] has division
    [min(division, M)]; [with_loss(min_loss=m)] has a loss that is at least
    [m] and at least the current loss, and [with_loss(max_loss=m)] a loss
    that is at most [m] and at most the current loss, each time one of the
    two. *)
Theorem adaptive_withers_clamp (self : adaptive.AdaptiveMeshLine) :
  (forall M,
     adaptive.division
       (new_object (adaptive.with_division self None (Some M) None)) =
       Z.max (adaptive.division self) M /\
     adaptive.division
       (new_object (adaptive.with_division self None None (Some M))) =
       Z.min (adaptive.division self) M) /\
  (forall m,
     let l := adaptive.loss
                (new_object (adaptive.with_loss self None (Some m) None)) in
     m <= l /\ adaptive.loss self <= l /\
     (l = adaptive.loss self \/ l = m)) /\
  (forall m,
     let l := adaptive.loss
                (new_object (adaptive.with_loss self None None (Some m))) in
     l <= m /\ l <= adaptive.loss self /\
     (l = adaptive.loss self \/ l = m)).
Proof.
  split; [|split].
  - intros M. rewrite !adaptive_with_division_new.
    cbn -[utils.clip]. now rewrite !clip_Z.
  - intros m l. subst l. rewrite adaptive_with_loss_new.
    cbn -[py_max].
    destruct (py_max_Q_cases (adaptive.loss self) m) as [[-> ?] | [-> ?]];
      repeat split; auto; lra.
  - intros m l. subst l. rewrite adaptive_with_loss_new.
    cbn -[py_min].
    destruct (py_min_Q_cases (adaptive.loss self) m) as [[-> ?] | [-> ?]];
      repeat split; auto; lra.
Qed.

(** X20. [clip] preserves the order of the values it is given, whatever
    the bounds. *)
Theorem clip_monotone (v w : Z) (lo hi : option Z) :
  (v <= w)%Z -> (utils.clip v lo hi <= utils.clip w lo hi)%Z.
Proof.
  intros H. rewrite !clip_Z. destruct lo, hi; cbn; lia.
Qed.

Lemma clip_monotone_witness :
  (3 <= 7)%Z /\
  (utils.clip 3%Z (Some 5%Z) None <= utils.clip 7%Z (Some 5%Z) None)%Z.
Proof.
  split; [lia|]. apply (clip_monotone 3 7 (Some 5%Z) None). lia.
Defined.



(** * The derived views and the points on floats *)

Import PrimFloat.




(** ** Density-driven meshes *)




(** ** Resolution-driven meshes *)




(** ** The points on floats *)








